(** * A data-analysis chat agent: orchestrator and interactive shell

    Shallow embedding of [src/agent.py] (class [DataAnalysisAgent]) and of
    [src/main.py] (start-up and the read loop), followed by the properties
    of the chat / history / error-handling control flow.

    Python values are modelled as follows.
    - [str] is a list of Unicode code points, so that [len] and slicing
      count code points as Python does.
    - An exception is a class together with the text [str(e)] gives.
    - A statement sequence that prints, mutates [self] and may raise is a
      computation in the monad [Py], a state monad whose result is a
      return value, a raised exception, or a program blocked in [input()].
    - The reasoning engine (LangChain's [AgentExecutor.invoke]) is external
      to the repository: it is a parameter [invoke] threading an abstract
      [World]. *)

From Stdlib Require Import List NArith ZArith Arith Lia Bool String Ascii.
From Stdlib Require Import DecimalString.
Import ListNotations.

Set Implicit Arguments.

(* ===================================================================== *)
(** * Python strings *)
(* ===================================================================== *)

Module PyStr.

Definition char := N.
Definition str := list char.

(** Decoding of the UTF-8 bytes of a literal into code points. *)
Fixpoint utf8_decode (bs : list N) : str :=
  match bs with
  | [] => []
  | b :: r =>
      if (b <? 128)%N then b :: utf8_decode r
      else if (b <? 224)%N then
        match r with
        | b1 :: r' => ((b - 192) * 64 + (b1 - 128))%N :: utf8_decode r'
        | _ => []
        end
      else if (b <? 240)%N then
        match r with
        | b1 :: b2 :: r' =>
            ((b - 224) * 4096 + (b1 - 128) * 64 + (b2 - 128))%N
              :: utf8_decode r'
        | _ => []
        end
      else
        match r with
        | b1 :: b2 :: b3 :: r' =>
            ((b - 240) * 262144 + (b1 - 128) * 4096
             + (b2 - 128) * 64 + (b3 - 128))%N :: utf8_decode r'
        | _ => []
        end
  end.

(** A source literal as a [str]. *)
Definition py (s : string) : str :=
  utf8_decode (map N_of_ascii (list_ascii_of_string s)).
Arguments py : simpl never.

(** The escape [\n]. *)
Definition nl : str := [10%N].

Definition len (s : str) : nat := List.length s.

(** [s[:n]]. *)
Definition slice_to (n : nat) (s : str) : str := firstn n s.

Fixpoint str_eqb (a b : str) : bool :=
  match a, b with
  | [], [] => true
  | x :: a', y :: b' => (x =? y)%N && str_eqb a' b'
  | _, _ => false
  end.

(** [x in xs] for a list of strings. *)
Definition str_in (x : str) (xs : list str) : bool := existsb (str_eqb x) xs.

(** [str.isspace] of one code point: the code points Python treats as
    whitespace. *)
Definition isspace (c : char) : bool :=
  ((9 <=? c) && (c <=? 13) || (28 <=? c) && (c <=? 32)
   || (c =? 133) || (c =? 160) || (c =? 5760)
   || (8192 <=? c) && (c <=? 8202)
   || (c =? 8232) || (c =? 8233) || (c =? 8239) || (c =? 8287)
   || (c =? 12288))%N.

Fixpoint lstrip (s : str) : str :=
  match s with
  | c :: r => if isspace c then lstrip r else s
  | [] => []
  end.

Definition rstrip (s : str) : str := rev (lstrip (rev s)).

(** [s.strip()]. *)
Definition strip (s : str) : str := rstrip (lstrip s).

(** [str.lower] of one code point, on the Basic Latin and Latin-1 blocks
    and on the two further code points whose lowercase form contains an
    ASCII letter (U+0130 and the Kelvin sign U+212A).  The other cased
    code points lowercase to text outside ASCII; they are left as they
    are, which cannot change whether a line equals a command word, the
    only use [main] makes of [lower]. *)
Definition lower_char (c : char) : str :=
  if ((65 <=? c) && (c <=? 90))%N then [(c + 32)%N]
  else if ((192 <=? c) && (c <=? 222) && negb (c =? 215))%N then [(c + 32)%N]
  else if (c =? 304)%N then [105%N; 775%N]
  else if (c =? 8490)%N then [107%N]
  else [c].

Definition lower (s : str) : str := flat_map lower_char s.

(** [str(i)] for a natural number. *)
Definition str_of_nat (n : nat) : str :=
  py (NilEmpty.string_of_uint (Nat.to_uint n)).

(** [needle in hay] for strings. *)
Fixpoint startswith (hay needle : str) : bool :=
  match needle, hay with
  | [], _ => true
  | x :: n', y :: h' => (x =? y)%N && startswith h' n'
  | _ :: _, [] => false
  end.

Fixpoint contains (hay needle : str) : bool :=
  startswith hay needle
  || match hay with
     | [] => false
     | _ :: h' => contains h' needle
     end.

End PyStr.
Import PyStr.

(* ===================================================================== *)
(** * Exceptions and the monad of Python statements *)
(* ===================================================================== *)

(** The classes directly under [BaseException], and [Exception] with all
    its subclasses, told apart by name. *)
Inductive exc_class : Type :=
| KeyboardInterrupt
| SystemExit (code : Z)
| GeneratorExit
| ExceptionClass (name : string).

Record exn : Type := mk_exn { exn_class : exc_class; exn_str : str }.

(** [isinstance(e, Exception)]: what [except Exception] catches. *)
Definition is_Exception (e : exn) : bool :=
  match exn_class e with
  | ExceptionClass _ => true
  | _ => false
  end.

(** [isinstance(e, KeyboardInterrupt)]. *)
Definition is_KeyboardInterrupt (e : exn) : bool :=
  match exn_class e with
  | KeyboardInterrupt => true
  | _ => false
  end.

Definition ValueError (msg : str) : exn := mk_exn (ExceptionClass "ValueError") msg.

(** [KeyError(key)]; its [str] is the [repr] of the key. *)
Definition KeyError (key : str) : exn :=
  mk_exn (ExceptionClass "KeyError") (py "'" ++ key ++ py "'").

Inductive result (A : Type) : Type :=
| Ret (a : A)
| Raise (e : exn)
| Blocked.
Arguments Ret {A} a.
Arguments Raise {A} e.
Arguments Blocked {A}.

Definition Py (S A : Type) : Type := S -> result A * S.

Definition ret {S A} (a : A) : Py S A := fun s => (Ret a, s).
Definition raise {S A} (e : exn) : Py S A := fun s => (Raise e, s).
Definition blocked {S A} : Py S A := fun s => (Blocked, s).

Definition bind {S A B} (m : Py S A) (k : A -> Py S B) : Py S B :=
  fun s =>
    match m s with
    | (Ret a, s') => k a s'
    | (Raise e, s') => (Raise e, s')
    | (Blocked, s') => (Blocked, s')
    end.

Declare Scope py_scope.
Delimit Scope py_scope with py.
Notation "x <- m ;; k" := (bind m (fun x => k))
  (at level 61, m at next level, right associativity) : py_scope.
Notation "m ;; k" := (bind m (fun _ => k))
  (at level 61, right associativity) : py_scope.
Open Scope py_scope.

(** An [except] clause: the test on the exception and the handler. *)
Definition handler (S A : Type) : Type := ((exn -> bool) * (exn -> Py S A))%type.

Fixpoint dispatch {S A} (hs : list (handler S A)) (e : exn) : Py S A :=
  match hs with
  | [] => raise e
  | (test, h) :: hs' => if test e then h e else dispatch hs' e
  end.

(** [try: body except ...: ...], the first matching clause handles. *)
Definition try_except {S A} (body : Py S A) (hs : list (handler S A)) : Py S A :=
  fun s =>
    match body s with
    | (Raise e, s') => dispatch hs e s'
    | r => r
    end.

(** Python dictionaries with string keys, as association lists. *)
Definition dict := list (str * str).

Fixpoint dict_get (d : dict) (key : str) : option str :=
  match d with
  | [] => None
  | (k, v) :: d' => if str_eqb k key then Some v else dict_get d' key
  end.

(** [d[key]]. *)
Definition getitem {S} (d : dict) (key : str) : Py S str :=
  match dict_get d key with
  | Some v => ret v
  | None => raise (KeyError key)
  end.

(* ===================================================================== *)
(** * [agent.py]: the orchestrator *)
(* ===================================================================== *)

(** [ChatOpenAI(model=..., temperature=..., api_key=...)]. *)
Record ChatOpenAI : Type :=
  { model : str; temperature : Z; api_key : str }.

Inductive PythonREPLTool : Type := mk_PythonREPLTool.

Record PromptTemplate : Type :=
  { input_variables : list str; template : str }.

(** [create_react_agent(llm=..., tools=..., prompt=...)]. *)
Record ReActAgent : Type :=
  { ra_llm : ChatOpenAI; ra_tools : list PythonREPLTool;
    ra_prompt : PromptTemplate }.

(** [AgentExecutor(agent=..., tools=..., verbose=..., max_iterations=...,
    handle_parsing_errors=...)]. *)
Record AgentExecutor : Type :=
  { ex_agent : ReActAgent; ex_tools : list PythonREPLTool;
    verbose : bool; max_iterations : nat; handle_parsing_errors : bool }.

(** The attributes of a [DataAnalysisAgent] instance. *)
Record DataAnalysisAgent : Type :=
  { llm : ChatOpenAI;
    csv_file_path : str;
    chat_history : list (str * str);
    python_tool : PythonREPLTool;
    tools : list PythonREPLTool;
    prompt_template : PromptTemplate;
    agent : ReActAgent;
    agent_executor : AgentExecutor }.

Definition prompt_text : str := py
"Here is a CSV file located at {csv_file_path}. Please answer the following questions as best you can. You have access to the following tools:

            {tools}

            Chat history from previous conversations:
            {chat_history}

            Use the following format:

            Question: the input question you must answer
            Thought: you should always think about what to do
            Action: the action to take, should be one of [{tool_names}]
            Action Input: the input to the action
            Observation: the result of the action
            ... (this Thought/Action/Action Input/Observation can be repeated zero or 3 times)
            Thought: I now know the final answer
            Final Answer: the final answer to the original input question

            Begin!

            Question: {query}
            {agent_scratchpad}".

(** [DataAnalysisAgent.__init__]. *)
Definition __init__ (llm0 : ChatOpenAI) (csv_file_path0 : str) : DataAnalysisAgent :=
  let python_tool0 := mk_PythonREPLTool in
  let tools0 := [python_tool0] in
  let prompt_template0 :=
    {| input_variables :=
         [py "tools"; py "chat_history"; py "tool_names"; py "query";
          py "agent_scratchpad"];
       template := prompt_text |} in
  let agent0 :=
    {| ra_llm := llm0; ra_tools := tools0; ra_prompt := prompt_template0 |} in
  {| llm := llm0;
     csv_file_path := csv_file_path0;
     chat_history := [];
     python_tool := python_tool0;
     tools := tools0;
     prompt_template := prompt_template0;
     agent := agent0;
     agent_executor :=
       {| ex_agent := agent0; ex_tools := tools0; verbose := true;
          max_iterations := 10; handle_parsing_errors := true |} |}.

Definition _get_tool_descriptions (self0 : DataAnalysisAgent) : str := py
"Python_REPL: A Python shell. Use this to execute python commands. Input should be a valid python command. If you want to see the output of a value, you should print it out with `print(...)`.".

(** The dictionary [inputs] that [chat] hands to the engine. *)
Record Inputs : Type :=
  { in_csv_file_path : str;
    in_tools : str;
    in_chat_history : list (str * str);
    in_tool_names : str;
    in_query : str;
    in_agent_scratchpad : str }.

(** What a call of [agent_executor.invoke] comes back with. *)
Inductive engine_result : Type :=
| Returns (response : dict)
| Raises (e : exn).

(** A state that has a standard output: the text written so far, one
    entry per write. *)
Class Console (S : Type) : Type :=
  { written : S -> list str;
    set_written : list str -> S -> S }.

(** [sys.stdout.write(chunk)]. *)
Definition write {S} `{Console S} (chunk : str) : Py S unit :=
  fun s => (Ret tt, set_written (written s ++ [chunk]) s).

(** [print(text)]. *)
Definition print {S} `{Console S} (text : str) : Py S unit :=
  write (text ++ nl).

Section Orchestrator.

(** The engine's own state (model, network, interpreter of the tool). *)
Variable World : Type.

(** [AgentExecutor.invoke], external to the repository. *)
Variable invoke : AgentExecutor -> Inputs -> World -> engine_result * World.

(** What the process acts on besides its objects: the text written to
    the standard output, the engine's world, and a record of the
    questions [chat] was called with (kept for the proofs only). *)
Record Process : Type :=
  { stdout : list str;
    world : World;
    chat_calls : list str }.

(** The process together with the agent object [main] created. *)
Record State : Type :=
  { self : DataAnalysisAgent;
    proc : Process }.

#[export] Instance Console_Process : Console Process :=
  { written := stdout;
    set_written := fun o p =>
      {| stdout := o; world := world p; chat_calls := chat_calls p |} }.

#[export] Instance Console_State : Console State :=
  { written := fun s => stdout (proc s);
    set_written := fun o s =>
      {| self := self s; proc := set_written o (proc s) |} }.

Definition set_history (h : list (str * str)) (a : DataAnalysisAgent) : DataAnalysisAgent :=
  {| llm := llm a; csv_file_path := csv_file_path a; chat_history := h;
     python_tool := python_tool a; tools := tools a;
     prompt_template := prompt_template a; agent := agent a;
     agent_executor := agent_executor a |}.

Definition get_self : Py State DataAnalysisAgent := fun s => (Ret (self s), s).

(** [self.chat_history.append(turn)]. *)
Definition chat_history_append (turn : str * str) : Py State unit :=
  fun s => (Ret tt,
            {| self := set_history (chat_history (self s) ++ [turn]) (self s);
               proc := proc s |}).

(** [self.chat_history = []]. *)
Definition chat_history_reset : Py State unit :=
  fun s => (Ret tt, {| self := set_history [] (self s); proc := proc s |}).

(** [self.agent_executor.invoke(inputs)]. *)
Definition agent_executor_invoke (inputs : Inputs) : Py State dict :=
  fun s =>
    let (r, w) := invoke (agent_executor (self s)) inputs (world (proc s)) in
    let s' := {| self := self s;
                 proc := {| stdout := stdout (proc s); world := w;
                            chat_calls := chat_calls (proc s) |} |} in
    match r with
    | Returns response => (Ret response, s')
    | Raises e => (Raise e, s')
    end.

Definition record_call (query : str) : Py State unit :=
  fun s => (Ret tt,
            {| self := self s;
               proc := {| stdout := stdout (proc s); world := world (proc s);
                          chat_calls := chat_calls (proc s) ++ [query] |} |}).

Definition make_inputs (a : DataAnalysisAgent) (query : str) : Inputs :=
  {| in_csv_file_path := csv_file_path a;
     in_tools := py "Python_REPL";
     in_chat_history := chat_history a;
     in_tool_names := _get_tool_descriptions a;
     in_query := query;
     in_agent_scratchpad := [] |}.

(** [DataAnalysisAgent.chat]. *)
Definition chat (query : str) : Py State str :=
  record_call query ;;
  print (nl ++ py "🤖 User Question: " ++ query) ;;
  try_except
    (a <- get_self ;;
     let inputs := make_inputs a query in
     response <- agent_executor_invoke inputs ;;
     output <- getitem response (py "output") ;;
     chat_history_append (query, output) ;;
     getitem response (py "output"))
    [(is_Exception,
      fun e =>
        let error_msg := py "Execution error: " ++ exn_str e in
        print (nl ++ py "❌ Error: " ++ error_msg) ;;
        chat_history_append (query, error_msg) ;;
        ret error_msg)].

(** [DataAnalysisAgent.clear_history]. *)
Definition clear_history : Py State unit :=
  chat_history_reset ;;
  print (py "✅ Chat history cleared.").

(** [DataAnalysisAgent.get_history]. *)
Definition get_history : Py State (list (str * str)) :=
  a <- get_self ;; ret (chat_history a).

(* ===================================================================== *)
(** * [main.py]: start-up and the interactive shell *)
(* ===================================================================== *)

(** What the program reads from its host: the environment once
    [load_dotenv()] has run, and which paths exist. *)
Record Host : Type :=
  { getenv : str -> option str;
    path_exists : str -> bool }.

(** [load_environment]. *)
Definition load_environment {S} (host : Host) : Py S str :=
  match getenv host (py "OPENAI_API_KEY") with
  | Some (c :: k) => ret (c :: k)
  | _ =>
      raise (ValueError (py
        "OPENAI_API_KEY not found in environment variables. Please check your .env file."))
  end.

(** [initialize_llm]; [main] leaves [model] and [temperature] to their
    defaults. *)
Definition initialize_llm (api_key0 : str) (model0 : str) (temperature0 : Z) : ChatOpenAI :=
  {| model := model0; temperature := temperature0; api_key := api_key0 |}.

(** ["=" * 50]. *)
Definition rule : str := repeat 61%N 50.

(** [print_welcome_message]. *)
Definition print_welcome_message {S} `{Console S} : Py S unit :=
  print (py "🚢 Data Analysis Agent Started!") ;;
  print rule ;;
  print (py "You can ask questions in natural language, such as:") ;;
  print (py "- 'Show me basic statistics of the data'") ;;
  print (py "- 'Create a survival rate distribution chart'") ;;
  print (py "- 'Predict survival rate using age and tell me the accuracy'") ;;
  print (py "- 'What are the correlations between different features?'") ;;
  print (py "- 'Show me the distribution of passenger classes'") ;;
  print rule.

(** One call of [input()]: a line, or an exception raised while waiting
    ([KeyboardInterrupt], [EOFError]). *)
Inductive input_event : Type :=
| Line (text : str)
| InputRaises (e : exn).

(** [input(prompt)]; with no event left the program stays blocked in the
    call. *)
Definition input (prompt : str) (ev : option input_event) : Py State str :=
  write prompt ;;
  match ev with
  | Some (Line text) => ret text
  | Some (InputRaises e) => raise e
  | None => blocked
  end.

(** How one pass through the body of [while True] ends. *)
Inductive control : Type :=
| Break
| Continue.

(** The [for] loop over [enumerate(history, i)]. *)
Fixpoint print_turns (i : nat) (history : list (str * str)) : Py State unit :=
  match history with
  | [] => ret tt
  | (q, a) :: rest =>
      print (str_of_nat i ++ py ". Q: " ++ q) ;;
      print (if 100 <? len a
             then py "   A: " ++ slice_to 100 a ++ py "..."
             else py "   A: " ++ a) ;;
      print_turns (S i) rest
  end.

(** The branch of the loop body for [history] and [show history]. *)
Definition show_history : Py State unit :=
  history <- get_history ;;
  match history with
  | _ :: _ =>
      print (nl ++ py "📝 Chat History:") ;;
      print_turns 1 history
  | [] => print (py "No chat history yet.")
  end.

(** The body of [while True], reading the event [ev]. *)
Definition iteration (ev : option input_event) : Py State control :=
  try_except
    (user_input <-
       input (nl ++ py "💬 Enter your question (type 'quit' to exit): ") ev ;;
     if str_in (lower user_input) [py "quit"; py "exit"; py "q"] then
       (print (py "👋 Goodbye!") ;; ret Break)
     else if str_in (lower user_input) [py "clear"; py "clear history"] then
       (clear_history ;; ret Continue)
     else if str_in (lower user_input) [py "history"; py "show history"] then
       (show_history ;; ret Continue)
     else
       match strip user_input with
       | [] => print (py "Please enter a valid question.") ;; ret Continue
       | _ :: _ =>
           response <- chat user_input ;;
           print (nl ++ py "📊 Agent Response:" ++ nl ++ response) ;;
           ret Continue
       end)
    [(is_KeyboardInterrupt,
      fun _ => print (nl ++ py "👋 Goodbye!") ;; ret Break);
     (is_Exception,
      fun e =>
        print (nl ++ py "❌ Unexpected error: " ++ exn_str e) ;;
        print (py "Please try again or restart the application.") ;;
        ret Continue)].

(** [while True] over the events the standard input delivers. *)
Fixpoint loop (stdin : list input_event) : Py State unit :=
  match stdin with
  | [] => iteration None ;; ret tt
  | ev :: rest =>
      c <- iteration (Some ev) ;;
      match c with
      | Break => ret tt
      | Continue => loop rest
      end
  end.

(** Runs a computation on the agent object bound to the local [agent]. *)
Definition with_agent {A} (a : DataAnalysisAgent) (m : Py State A) : Py Process A :=
  fun p =>
    let (r, s) := m {| self := a; proc := p |} in (r, proc s).

(** [main]. *)
Definition main (host : Host) (stdin : list input_event) : Py Process unit :=
  try_except
    (api_key0 <- load_environment host ;;
     let llm0 := initialize_llm api_key0 (py "gpt-4o") 0 in
     let csv_file_path0 := py "data.csv" in
     if negb (path_exists host csv_file_path0) then
       print (py "❌ Error: CSV file '" ++ csv_file_path0 ++ py "' not found.") ;;
       print (py
         "Please ensure your data file exists and update the path in main.py") ;;
       ret tt
     else
       let agent0 := __init__ llm0 csv_file_path0 in
       with_agent agent0 (print_welcome_message ;; loop stdin))
    [(is_Exception,
      fun e =>
        print (py "❌ Failed to initialize: " ++ exn_str e) ;;
        print (py "Please check your configuration and try again."))].

(** The exit status of the interpreter once [main()] is over: 0 when it
    returned, the status of an uncaught exception otherwise; none while
    the program is still waiting for input. *)
Definition exit_code (r : result unit) : option Z :=
  match r with
  | Ret _ => Some 0%Z
  | Raise e =>
      match exn_class e with
      | SystemExit code => Some code
      | KeyboardInterrupt => Some 130%Z
      | _ => Some 1%Z
      end
  | Blocked => None
  end.

(** [if __name__ == "__main__": main()]. *)
Definition script (host : Host) (stdin : list input_event) (p : Process) : option Z * Process :=
  let (r, p') := main host stdin p in (exit_code r, p').

(** ** The command words *)

Definition quit_words : list str := [py "quit"; py "exit"; py "q"].
Definition clear_words : list str := [py "clear"; py "clear history"].
Definition history_words : list str := [py "history"; py "show history"].

(** A string made of whitespace only (the empty one included). *)
Definition all_space (s : str) : Prop := Forall (fun c => isspace c = true) s.

(** All the words the shell recognises. *)
Definition commands : list str := quit_words ++ clear_words ++ history_words.

(** ** Text and attributes named in the properties *)

(** The line [chat] prints first. *)
Definition question_line (q : str) : str :=
  (nl ++ py "🤖 User Question: " ++ q) ++ nl.

(** The diagnostic built by the [except] clause of [chat]. *)
Definition diagnostic (e : exn) : str := py "Execution error: " ++ exn_str e.

(** The line that clause prints. *)
Definition error_line (e : exn) : str :=
  (nl ++ py "❌ Error: " ++ diagnostic e) ++ nl.

(** The prompt of [input]. *)
Definition input_prompt : str :=
  nl ++ py "💬 Enter your question (type 'quit' to exit): ".

(** The state [s] once [lines] more have been written. *)
Definition printing (lines : list str) (s : State) : State :=
  {| self := self s;
     proc := {| stdout := stdout (proc s) ++ lines;
                world := world (proc s);
                chat_calls := chat_calls (proc s) |} |}.

(** The same for a process. *)
Definition printing_p (lines : list str) (p : Process) : Process :=
  {| stdout := stdout p ++ lines; world := world p;
     chat_calls := chat_calls p |}.

(** What [print_turns] writes. *)
Fixpoint turn_lines (i : nat) (history : list (str * str)) : list str :=
  match history with
  | [] => []
  | (q, a) :: rest =>
      ((str_of_nat i ++ py ". Q: " ++ q) ++ nl)
        :: ((if 100 <? len a
             then py "   A: " ++ slice_to 100 a ++ py "..."
             else py "   A: " ++ a) ++ nl)
        :: turn_lines (S i) rest
  end.

(** The attributes of an agent other than its history. *)
Definition same_configuration (a b : DataAnalysisAgent) : Prop :=
  llm a = llm b
  /\ csv_file_path a = csv_file_path b
  /\ python_tool a = python_tool b
  /\ tools a = tools b
  /\ prompt_template a = prompt_template b
  /\ agent a = agent b
  /\ agent_executor a = agent_executor b.

(** ** Runs of several calls *)

(** The questions [qs] put to [chat] one after the other. *)
Fixpoint chat_each (qs : list str) : Py State (list str) :=
  match qs with
  | [] => ret []
  | q :: qs' =>
      a <- chat q ;;
      rest <- chat_each qs' ;;
      ret (a :: rest)
  end.

(** The engine, called for [query] in state [s], returns a response
    whose ["output"] entry is [answer]. *)
Definition engine_answers (s : State) (query answer : str) : Prop :=
  exists response w,
    invoke (agent_executor (self s)) (make_inputs (self s) query)
           (world (proc s)) = (Returns response, w)
    /\ dict_get response (py "output") = Some answer.

(** Every call of the run [chat_each qs] started in [s] is a success, the
    engine giving the answers [answers] in turn. *)
Inductive all_answered : State -> list str -> list str -> Prop :=
| all_answered_nil : forall s, all_answered s [] []
| all_answered_cons : forall s q a qs answers,
    engine_answers s q a ->
    all_answered (snd (chat q s)) qs answers ->
    all_answered s (q :: qs) (a :: answers).

(** The exception that ends the [try] block of [chat], if any, given what
    the engine came back with. *)
Definition raised_in_try (r : engine_result) : option exn :=
  match r with
  | Raises e => Some e
  | Returns response =>
      match dict_get response (py "output") with
      | Some _ => None
      | None => Some (KeyError (py "output"))
      end
  end.

(** The loop, started in [s], has taken the events [pre] and is about to
    read the next one in state [s']. *)
Inductive reaches : State -> list input_event -> State -> Prop :=
| reaches_nil : forall s, reaches s [] s
| reaches_cons : forall s ev s1 pre s',
    iteration (Some ev) s = (Ret Continue, s1) ->
    reaches s1 pre s' ->
    reaches s (ev :: pre) s'.

(** The state in which [main] enters the loop after a good start. *)
Definition booted (key : str) (p : Process) : State :=
  snd ((print_welcome_message : Py State unit)
         {| self := __init__ (initialize_llm key (py "gpt-4o") 0) (py "data.csv");
            proc := p |}).

(** The lines of [stdin] that are neither empty nor all whitespace. *)
Definition nonblank_lines (stdin : list input_event) : list str :=
  flat_map (fun ev =>
              match ev with
              | Line text =>
                  match strip text with [] => [] | _ :: _ => [text] end
              | InputRaises _ => []
              end) stdin.

End Orchestrator.

(** Modelled from the spec: the cycle loop of the external reasoning
    engine, which the repository only configures (LangChain's
    [AgentExecutor]).  Section 4.2: the engine is "bounded to at most a
    fixed number of reasoning/act/observe cycles (policy: 10) before the
    engine is forced to stop and must produce a best-effort final
    answer".  [think] is one cycle on the observations made so far,
    [forced] the best-effort answer; the result is the answer and the
    number of cycles run. *)
Inductive cycle : Type :=
| Finish (answer : str)
| Observe (observation : str).

Fixpoint run_cycles (think : list str -> cycle) (forced : list str -> str)
    (budget : nat) (seen : list str) : str * nat :=
  match budget with
  | 0 => (forced seen, 0)
  | S budget' =>
      match think seen with
      | Finish answer => (answer, 1)
      | Observe o =>
          let (answer, n) := run_cycles think forced budget' (seen ++ [o]) in
          (answer, S n)
      end
  end.

Definition engine_run (ex : AgentExecutor) (think : list str -> cycle)
    (forced : list str -> str) : str * nat :=
  run_cycles think forced (max_iterations ex) [].

(* ===================================================================== *)
(** * Concrete engines, hosts and states *)
(* ===================================================================== *)

Module Demo.

(** An engine that plays back a list of prepared results, one per call. *)
Definition scripted : AgentExecutor -> Inputs -> list engine_result ->
                      engine_result * list engine_result :=
  fun _ _ w =>
    match w with
    | r :: w' => (r, w')
    | [] => (Raises (mk_exn (ExceptionClass "RuntimeError") (py "no result left")), [])
    end.

Definition answer (text : str) : engine_result :=
  Returns [(py "input", py "?"); (py "output", text)].

Definition rate_limit : exn :=
  mk_exn (ExceptionClass "RateLimitError") (py "rate limit exceeded").

Definition interrupt : exn := mk_exn KeyboardInterrupt [].

Definition fresh_agent : DataAnalysisAgent :=
  __init__ (initialize_llm (py "sk-test") (py "gpt-4o") 0) (py "data.csv").

(** A state with an empty history whose engine will play back [w]. *)
Definition start (w : list engine_result) : State (list engine_result) :=
  {| self := fresh_agent;
     proc := {| stdout := []; world := w; chat_calls := [] |} |}.

(** The same with a given history. *)
Definition start_with (h : list (str * str)) (w : list engine_result) : State (list engine_result) :=
  {| self := set_history h fresh_agent;
     proc := {| stdout := []; world := w; chat_calls := [] |} |}.

Definition host_ok : Host :=
  {| getenv := fun k => if str_eqb k (py "OPENAI_API_KEY") then Some (py "sk-test") else None;
     path_exists := fun f => str_eqb f (py "data.csv") |}.

Definition host_no_key : Host :=
  {| getenv := fun _ => None; path_exists := fun _ => true |}.

Definition host_no_file : Host :=
  {| getenv := fun _ => Some (py "sk-test"); path_exists := fun _ => false |}.

Definition process0 (w : list engine_result) : Process (list engine_result) :=
  {| stdout := []; world := w; chat_calls := [] |}.

Definition long_answer : str := repeat 120%N 101.

Definition q_stats : str := py "show me basic statistics".
Definition a_stats : str := py "Mean age is 29.7".
Definition q_plot : str := py "plot the ages".

(** The state in which the loop, started after a good start-up with an
    engine about to answer [a_stats], has handled the line [q_stats]. *)
Definition after_first_line : State (list engine_result) :=
  snd (iteration scripted (Some (Line q_stats))
         (booted (py "sk-test") (process0 [answer a_stats]))).

End Demo.

(* ===================================================================== *)
(** * Properties *)
(* ===================================================================== *)

Unset Implicit Arguments.

(** ** Strings *)

Lemma str_eqb_eq : forall a b, str_eqb a b = true <-> a = b.
Proof.
  induction a as [|x a IH]; destruct b as [|y b]; simpl; split; intro H;
    try reflexivity; try discriminate.
  - apply andb_true_iff in H. destruct H as [Hx Hr].
    apply N.eqb_eq in Hx. apply IH in Hr. congruence.
  - injection H as -> ->. rewrite N.eqb_refl. simpl. now apply IH.
Qed.

Lemma str_in_In : forall x xs, str_in x xs = true <-> In x xs.
Proof.
  intros x xs. unfold str_in. rewrite existsb_exists. split.
  - intros [y [Hy He]]. apply str_eqb_eq in He. now subst.
  - intro H. exists x. split; [assumption | now apply str_eqb_eq].
Qed.

Lemma str_in_not_In : forall x xs, ~ In x xs -> str_in x xs = false.
Proof.
  intros x xs H. destruct (str_in x xs) eqn:E; [|reflexivity].
  apply str_in_In in E. contradiction.
Qed.

Section Properties.

Variable World : Type.
Variable invoke : AgentExecutor -> Inputs -> World -> engine_result * World.

(** ** One call of [chat] *)

Lemma chat_success : forall q s response w a,
  invoke (agent_executor (self s)) (make_inputs (self s) q) (world (proc s))
    = (Returns response, w) ->
  dict_get response (py "output") = Some a ->
  chat invoke q s =
    (Ret a,
     {| self := set_history (chat_history (self s) ++ [(q, a)]) (self s);
        proc := {| stdout := stdout (proc s) ++ [question_line q];
                   world := w;
                   chat_calls := chat_calls (proc s) ++ [q] |} |}).
Proof.
  intros q s response w a Hinv Hout.
  unfold chat, bind, try_except, record_call, print, write, get_self,
    agent_executor_invoke, getitem, chat_history_append; simpl.
  rewrite Hinv. rewrite Hout. reflexivity.
Qed.

Lemma chat_caught : forall q s r w e,
  invoke (agent_executor (self s)) (make_inputs (self s) q) (world (proc s))
    = (r, w) ->
  raised_in_try r = Some e ->
  is_Exception e = true ->
  chat invoke q s =
    (Ret (diagnostic e),
     {| self := set_history (chat_history (self s) ++ [(q, diagnostic e)]) (self s);
        proc := {| stdout := stdout (proc s) ++ [question_line q; error_line e];
                   world := w;
                   chat_calls := chat_calls (proc s) ++ [q] |} |}).
Proof.
  intros q s r w e Hinv Hr He.
  unfold chat, bind, try_except, record_call, print, write, get_self,
    agent_executor_invoke, getitem, chat_history_append; simpl.
  rewrite Hinv. destruct r as [response|e0]; simpl in Hr.
  - destruct (dict_get response (py "output")) eqn:Hout; [discriminate|].
    injection Hr as <-. simpl. rewrite <- app_assoc. reflexivity.
  - injection Hr as ->. simpl. rewrite He. simpl.
    rewrite <- app_assoc. reflexivity.
Qed.

Lemma chat_escapes : forall q s w e,
  invoke (agent_executor (self s)) (make_inputs (self s) q) (world (proc s))
    = (Raises e, w) ->
  is_Exception e = false ->
  chat invoke q s =
    (Raise e,
     {| self := self s;
        proc := {| stdout := stdout (proc s) ++ [question_line q];
                   world := w;
                   chat_calls := chat_calls (proc s) ++ [q] |} |}).
Proof.
  intros q s w e Hinv He.
  unfold chat, bind, try_except, record_call, print, write, get_self,
    agent_executor_invoke, getitem, chat_history_append; simpl.
  rewrite Hinv. simpl. rewrite He. reflexivity.
Qed.

(** What the engine came back with decides which of the three lemmas
    above applies. *)
Lemma raised_in_try_cases : forall r,
  (exists response a, r = Returns response
                      /\ dict_get response (py "output") = Some a)
  \/ (exists e, raised_in_try r = Some e /\ is_Exception e = true)
  \/ (exists e, r = Raises e /\ is_Exception e = false).
Proof.
  intros [response|e]; simpl.
  - destruct (dict_get response (py "output")) as [a|] eqn:Hout.
    + left. now exists response, a.
    + right. left. eexists. split; reflexivity.
  - destruct (is_Exception e) eqn:He.
    + right. left. now exists e.
    + right. right. now exists e.
Qed.

(** ** Failures inside [chat] *)

(** C1, as amended.  Whatever ends the [try] block of [chat] with an
    exception [e] of class [Exception] (the engine or its tool raising,
    or a response without an ["output"] entry), the call returns the
    text "Execution error: " followed by [str(e)] and appends exactly the
    turn (question, that text) to the history.  An exception outside
    class [Exception] is not caught: the call raises it and the history
    is as before. *)
Theorem chat_failure_handling : forall q s r w e,
  invoke (agent_executor (self s)) (make_inputs (self s) q) (world (proc s))
    = (r, w) ->
  raised_in_try r = Some e ->
  if is_Exception e
  then fst (chat invoke q s) = Ret (py "Execution error: " ++ exn_str e)
       /\ chat_history (self (snd (chat invoke q s)))
          = chat_history (self s) ++ [(q, py "Execution error: " ++ exn_str e)]
       /\ List.length (chat_history (self (snd (chat invoke q s))))
          = S (List.length (chat_history (self s)))
  else fst (chat invoke q s) = Raise e
       /\ chat_history (self (snd (chat invoke q s))) = chat_history (self s).
Proof.
  intros q s r w e Hinv Hr.
  destruct (is_Exception e) eqn:He.
  - rewrite (chat_caught q s r w e Hinv Hr He). simpl.
    repeat split. rewrite length_app. simpl. lia.
  - destruct r as [response|e0]; simpl in Hr.
    + destruct (dict_get response (py "output")); [discriminate|].
      injection Hr as <-. discriminate He.
    + injection Hr as ->. rewrite (chat_escapes q s w e Hinv He). now split.
Qed.

(** ** Successful calls *)

Lemma chat_each_cons : forall q qs s a s1,
  chat invoke q s = (Ret a, s1) ->
  chat_each invoke (q :: qs) s =
    match chat_each invoke qs s1 with
    | (Ret rest, s2) => (Ret (a :: rest), s2)
    | (Raise e, s2) => (Raise e, s2)
    | (Blocked, s2) => (Blocked, s2)
    end.
Proof.
  intros q qs s a s1 H. simpl. unfold bind. rewrite H.
  destruct (chat_each invoke qs s1) as [[rest|e|] s2]; reflexivity.
Qed.

(** C2.  In a run of calls that all succeed, each call returns the
    answer text of the engine's response and appends the turn
    (question, answer): the history afterwards is the one before followed
    by the turns in the order of the calls, so its length grows by the
    number of calls (and is that number from an empty history). *)
Theorem successful_calls_history : forall s qs answers,
  all_answered invoke s qs answers ->
  fst (chat_each invoke qs s) = Ret answers
  /\ chat_history (self (snd (chat_each invoke qs s)))
     = chat_history (self s) ++ combine qs answers
  /\ List.length (chat_history (self (snd (chat_each invoke qs s))))
     = List.length (chat_history (self s)) + List.length qs
  /\ List.length answers = List.length qs.
Proof.
  intros s qs answers H.
  induction H as [s | s q a qs answers [response [w [Hinv Hout]]] Hrest IH].
  - simpl. rewrite app_nil_r. repeat split. lia.
  - pose proof (chat_success q s response w a Hinv Hout) as Hchat.
    rewrite Hchat in IH. simpl in IH.
    destruct IH as [Hret [Hhist [Hlen Hans]]].
    rewrite (chat_each_cons q qs s a _ Hchat).
    destruct (chat_each invoke qs _) as [[rest|e|] s2]; simpl in *;
      try discriminate.
    injection Hret as ->.
    repeat split.
    + rewrite Hhist, <- app_assoc. reflexivity.
    + rewrite Hlen, length_app. simpl. lia.
    + now rewrite Hans.
Qed.

(** ** Clearing *)

(** C3.  Whatever the history holds, [clear_history] returns and leaves
    it empty. *)
Theorem clear_history_empties : forall s : State World,
  fst (clear_history s) = Ret tt
  /\ chat_history (self (snd (clear_history s))) = []
  /\ List.length (chat_history (self (snd (clear_history s)))) = 0.
Proof.
  intro s. unfold clear_history, bind, chat_history_reset, print, write.
  simpl. repeat split.
Qed.

(** ** The frame of [chat] *)

(** C9.  A call of [chat] invokes the engine once, on the request built
    from the history as it stands before the call; the history then is
    the old one with the single turn of this call appended when the call
    returns, and the old one when the call raises; every other attribute
    of the agent is as before. *)
Theorem chat_atomic_frame : forall q s,
  same_configuration (self (snd (chat invoke q s))) (self s)
  /\ in_chat_history (make_inputs (self s) q) = chat_history (self s)
  /\ world (proc (snd (chat invoke q s)))
     = snd (invoke (agent_executor (self s)) (make_inputs (self s) q)
                   (world (proc s)))
  /\ match fst (chat invoke q s) with
     | Ret a =>
         chat_history (self (snd (chat invoke q s)))
         = chat_history (self s) ++ [(q, a)]
     | Raise _ =>
         chat_history (self (snd (chat invoke q s))) = chat_history (self s)
     | Blocked => False
     end.
Proof.
  intros q s.
  destruct (invoke (agent_executor (self s)) (make_inputs (self s) q)
                   (world (proc s))) as [r w] eqn:Hinv.
  destruct (raised_in_try_cases r)
    as [[response [a [-> Hout]]] | [[e [Hr He]] | [e [-> He]]]].
  - rewrite (chat_success q s response w a Hinv Hout). simpl.
    unfold same_configuration. simpl. repeat split.
  - rewrite (chat_caught q s r w e Hinv Hr He). simpl.
    unfold same_configuration. simpl. repeat split.
  - rewrite (chat_escapes q s w e Hinv He). simpl.
    unfold same_configuration. repeat split.
Qed.

(** ** Whitespace, case and the command words *)

Lemma isspace_spec : forall c,
  isspace c = true ->
  (9 <= c <= 13 \/ 28 <= c <= 32 \/ c = 133 \/ c = 160 \/ c = 5760
   \/ 8192 <= c <= 8202 \/ c = 8232 \/ c = 8233 \/ c = 8239 \/ c = 8287
   \/ c = 12288)%N.
Proof.
  intros c H. unfold isspace in H.
  rewrite !orb_true_iff, !andb_true_iff, !N.leb_le, !N.eqb_eq in H.
  lia.
Qed.

Lemma lower_char_space : forall c, isspace c = true -> lower_char c = [c].
Proof.
  intros c H. apply isspace_spec in H. unfold lower_char.
  repeat match goal with
         | |- context [(?a <=? ?b)%N] => destruct (N.leb_spec a b); try lia
         | |- context [(?a =? ?b)%N] => destruct (N.eqb_spec a b); try lia
         end; reflexivity.
Qed.

Lemma lower_all_space : forall s, all_space s -> lower s = s.
Proof.
  induction 1 as [|c s Hc Hs IH]; [reflexivity|].
  unfold lower in *. simpl. rewrite (lower_char_space c Hc), IH. reflexivity.
Qed.

Lemma lower_app : forall a b, lower (a ++ b) = lower a ++ lower b.
Proof. intros a b. unfold lower. apply flat_map_app. Qed.

Lemma lstrip_nil : forall s, lstrip s = [] -> all_space s.
Proof.
  induction s as [|c s IH]; intro H; [constructor|].
  simpl in H. destruct (isspace c) eqn:Hc; [|discriminate].
  constructor; [assumption | now apply IH].
Qed.

Lemma lstrip_all_space : forall s, all_space s -> lstrip s = [].
Proof.
  induction 1 as [|c s Hc Hs IH]; [reflexivity|]. simpl. now rewrite Hc.
Qed.

Lemma lstrip_suffix : forall s, exists pre, all_space pre /\ s = pre ++ lstrip s.
Proof.
  induction s as [|c s [pre [Hpre Heq]]].
  - exists []. split; [constructor | reflexivity].
  - simpl. destruct (isspace c) eqn:Hc.
    + exists (c :: pre). split; [now constructor | simpl; congruence].
    + exists []. split; [constructor | reflexivity].
Qed.

(** [strip] leaves nothing exactly of the lines made of whitespace. *)
Lemma strip_nil_iff : forall s, strip s = [] <-> all_space s.
Proof.
  intro s. unfold strip, rstrip. split.
  - intro H.
    assert (Hl : lstrip (rev (lstrip s)) = []).
    { rewrite <- (rev_involutive (lstrip (rev (lstrip s)))), H. reflexivity. }
    apply lstrip_nil in Hl.
    destruct (lstrip_suffix s) as [pre [Hpre Heq]].
    rewrite Heq. apply Forall_app. split; [assumption|].
    rewrite <- (rev_involutive (lstrip s)). now apply Forall_rev.
  - intro H. rewrite (lstrip_all_space s H). reflexivity.
Qed.

(** No command word starts or ends with whitespace. *)
Lemma command_ends : forall c,
  In c commands ->
  exists x r, c = x :: r /\ isspace x = false /\ isspace (last c 0%N) = false.
Proof.
  intros c H. unfold commands in H. simpl in H.
  repeat (destruct H as [<- | H];
          [eexists; eexists; repeat split; vm_compute; reflexivity |]).
  contradiction.
Qed.

Lemma not_all_space_command : forall c, In c commands -> ~ all_space c.
Proof.
  intros c H Hs. destruct (command_ends c H) as [x [r [-> [Hx _]]]].
  inversion Hs; subst. congruence.
Qed.

(** A line of whitespace is none of the command words, in any case. *)
Lemma all_space_no_command : forall s, all_space s -> ~ In (lower s) commands.
Proof.
  intros s Hs H. rewrite (lower_all_space s Hs) in H.
  exact (not_all_space_command s H Hs).
Qed.

Lemma In_commands : forall x,
  In x commands <->
  In x quit_words \/ In x clear_words \/ In x history_words.
Proof.
  intro x. unfold commands. rewrite !in_app_iff. tauto.
Qed.

Lemma no_command_classify : forall x,
  ~ In x commands ->
  str_in x quit_words = false /\ str_in x clear_words = false
  /\ str_in x history_words = false.
Proof.
  intros x H. rewrite In_commands in H.
  repeat split; apply str_in_not_In; tauto.
Qed.

(** A command word with whitespace around it is no command word. *)
Lemma padded_no_command : forall ws1 cmd ws2,
  In (lower cmd) commands -> all_space ws1 -> all_space ws2 ->
  ws1 ++ ws2 <> [] ->
  ~ In (lower (ws1 ++ cmd ++ ws2)) commands.
Proof.
  intros ws1 cmd ws2 Hcmd H1 H2 Hne Hin.
  rewrite !lower_app, (lower_all_space ws1 H1), (lower_all_space ws2 H2) in Hin.
  destruct (command_ends _ Hin) as [x [r [Heq [Hx Hlast]]]].
  destruct ws1 as [|c ws1].
  - simpl in *. destruct ws2 as [|c ws2]; [congruence|].
    clear Heq Hx.
    destruct (exists_last (l := c :: ws2)) as [l' [z Hz]]; [discriminate|].
    rewrite Hz in *. rewrite app_assoc, last_last in Hlast.
    apply Forall_app in H2. destruct H2 as [_ H2]. inversion H2; subst.
    congruence.
  - simpl in Heq. injection Heq as <- _. inversion H1; subst. congruence.
Qed.

Lemma padded_not_blank : forall ws1 cmd ws2,
  In (lower cmd) commands -> strip (ws1 ++ cmd ++ ws2) <> [].
Proof.
  intros ws1 cmd ws2 Hcmd H. apply strip_nil_iff in H.
  apply Forall_app in H. destruct H as [_ H].
  apply Forall_app in H. destruct H as [H _].
  exact (all_space_no_command cmd H Hcmd).
Qed.

(** ** The branches of the loop body *)

Lemma printing_nil : forall s : State World, printing [] s = s.
Proof.
  intros [a [o w c]]. unfold printing. simpl. now rewrite app_nil_r.
Qed.

Lemma printing_printing : forall l1 l2 (s : State World),
  printing l2 (printing l1 s) = printing (l1 ++ l2) s.
Proof.
  intros l1 l2 s. unfold printing. simpl. now rewrite app_assoc.
Qed.

Lemma print_run : forall text (s : State World),
  print text s = (Ret tt, printing [text ++ nl] s).
Proof. reflexivity. Qed.

Lemma print_turns_run : forall history i (s : State World),
  print_turns i history s = (Ret tt, printing (turn_lines i history) s).
Proof.
  induction history as [|[q a] rest IH]; intros i s.
  - simpl. now rewrite printing_nil.
  - cbn [print_turns turn_lines]. unfold bind.
    rewrite !print_run, IH, !printing_printing. reflexivity.
Qed.

Lemma show_history_run : forall s : State World,
  show_history s =
    (Ret tt,
     match chat_history (self s) with
     | [] => printing [py "No chat history yet." ++ nl] s
     | _ :: _ =>
         printing (((nl ++ py "📝 Chat History:") ++ nl)
                     :: turn_lines 1 (chat_history (self s))) s
     end).
Proof.
  intro s. cbv [show_history bind get_history get_self ret].
  destruct (chat_history (self s)) as [|t h] eqn:Hh.
  - apply print_run.
  - rewrite print_run, print_turns_run, printing_printing. reflexivity.
Qed.

(** Runs the prints of a branch and gathers what they wrote. *)
Ltac run_prints :=
  cbv [try_except bind ret dispatch];
  repeat (rewrite print_run; cbv beta iota);
  rewrite ?printing_printing; try reflexivity.

(** The body of the loop on a line, before the [except] clauses. *)
Lemma iteration_line : forall line s,
  iteration invoke (Some (Line line)) s =
    try_except
      (if str_in (lower line) quit_words then
         (print (py "👋 Goodbye!") ;; ret Break)
       else if str_in (lower line) clear_words then
         (@clear_history World ;; ret Continue)
       else if str_in (lower line) history_words then
         (@show_history World ;; ret Continue)
       else
         match strip line with
         | [] => print (py "Please enter a valid question.") ;; ret Continue
         | _ :: _ =>
             response <- chat invoke line ;;
             print (nl ++ py "📊 Agent Response:" ++ nl ++ response) ;;
             ret Continue
         end)
      [(is_KeyboardInterrupt,
        fun _ => print (nl ++ py "👋 Goodbye!") ;; ret Break);
       (is_Exception,
        fun e =>
          print (nl ++ py "❌ Unexpected error: " ++ exn_str e) ;;
          print (py "Please try again or restart the application.") ;;
          ret Continue)]
      (printing [input_prompt] s).
Proof. reflexivity. Qed.

Lemma iteration_quit : forall line s,
  In (lower line) quit_words ->
  iteration invoke (Some (Line line)) s =
    (Ret Break, printing [input_prompt; py "👋 Goodbye!" ++ nl] s).
Proof.
  intros line s H. rewrite iteration_line.
  apply str_in_In in H. rewrite H. run_prints.
Qed.

Lemma iteration_clear : forall line s,
  In (lower line) clear_words ->
  iteration invoke (Some (Line line)) s =
    (Ret Continue,
     printing [input_prompt; py "✅ Chat history cleared." ++ nl]
       {| self := set_history [] (self s); proc := proc s |}).
Proof.
  intros line s H. rewrite iteration_line.
  assert (Hq : str_in (lower line) quit_words = false).
  { apply str_in_not_In. intro Hq. unfold clear_words, quit_words in *.
    simpl in H, Hq.
    repeat (destruct H as [H | H]; [rewrite <- H in Hq |]); try contradiction;
      repeat (destruct Hq as [Hq | Hq]; [discriminate Hq |]); contradiction. }
  apply str_in_In in H. rewrite Hq, H.
  cbv [try_except bind ret clear_history chat_history_reset].
  rewrite print_run. cbv beta iota. unfold printing. simpl.
  rewrite <- app_assoc. reflexivity.
Qed.

Lemma iteration_history : forall line s,
  In (lower line) history_words ->
  iteration invoke (Some (Line line)) s =
    (Ret Continue,
     match chat_history (self s) with
     | [] => printing [input_prompt; py "No chat history yet." ++ nl] s
     | _ :: _ =>
         printing (input_prompt :: ((nl ++ py "📝 Chat History:") ++ nl)
                     :: turn_lines 1 (chat_history (self s))) s
     end).
Proof.
  intros line s H. rewrite iteration_line.
  assert (Hq : str_in (lower line) quit_words = false
               /\ str_in (lower line) clear_words = false).
  { split; apply str_in_not_In; intro Hq;
      unfold history_words, clear_words, quit_words in *; simpl in H, Hq;
      repeat (destruct H as [H | H]; [rewrite <- H in Hq |]);
      try contradiction;
      repeat (destruct Hq as [Hq | Hq]; [discriminate Hq |]); contradiction. }
  destruct Hq as [Hq Hc]. apply str_in_In in H. rewrite Hq, Hc, H.
  cbv [try_except bind ret]. rewrite show_history_run. cbv beta iota.
  change (chat_history (self (printing [input_prompt] s)))
    with (chat_history (self s)).
  destruct (chat_history (self s)); rewrite printing_printing; reflexivity.
Qed.

Lemma iteration_blank : forall line s,
  strip line = [] ->
  iteration invoke (Some (Line line)) s =
    (Ret Continue,
     printing [input_prompt; py "Please enter a valid question." ++ nl] s).
Proof.
  intros line s H. rewrite iteration_line.
  pose proof (proj1 (strip_nil_iff line) H) as Hs.
  destruct (no_command_classify _ (all_space_no_command line Hs))
    as [Hq [Hc Hh]].
  rewrite Hq, Hc, Hh, H. run_prints.
Qed.

(** The remaining branch: the line goes to [chat]. *)
Lemma iteration_question : forall line s,
  ~ In (lower line) commands ->
  strip line <> [] ->
  iteration invoke (Some (Line line)) s =
    match chat invoke line (printing [input_prompt] s) with
    | (Ret response, s1) =>
        (Ret Continue,
         printing [(nl ++ py "📊 Agent Response:" ++ nl ++ response) ++ nl] s1)
    | (Raise e, s1) =>
        if is_KeyboardInterrupt e then
          (Ret Break, printing [(nl ++ py "👋 Goodbye!") ++ nl] s1)
        else if is_Exception e then
          (Ret Continue,
           printing [(nl ++ py "❌ Unexpected error: " ++ exn_str e) ++ nl;
                     py "Please try again or restart the application." ++ nl]
             s1)
        else (Raise e, s1)
    | (Blocked, s1) => (Blocked, s1)
    end.
Proof.
  intros line s Hno Hne. rewrite iteration_line.
  destruct (no_command_classify _ Hno) as [Hq [Hc Hh]].
  rewrite Hq, Hc, Hh.
  destruct (strip line) as [|c r]; [congruence|].
  cbv [try_except bind].
  destruct (chat invoke line (printing [input_prompt] s)) as [[response|e|] s1].
  - run_prints.
  - cbv [dispatch]. destruct (is_KeyboardInterrupt e); [run_prints|].
    destruct (is_Exception e); run_prints.
  - reflexivity.
Qed.

(** An exception raised while [input] waits. *)
Lemma iteration_input_raises : forall e s,
  iteration invoke (Some (InputRaises e)) s =
    if is_KeyboardInterrupt e then
      (Ret Break, printing [input_prompt; (nl ++ py "👋 Goodbye!") ++ nl] s)
    else if is_Exception e then
      (Ret Continue,
       printing [input_prompt;
                 (nl ++ py "❌ Unexpected error: " ++ exn_str e) ++ nl;
                 py "Please try again or restart the application." ++ nl] s)
    else (Raise e, printing [input_prompt] s).
Proof.
  intros e s.
  change (iteration invoke (Some (InputRaises e)) s)
    with (dispatch
            [(is_KeyboardInterrupt,
              fun _ => print (nl ++ py "👋 Goodbye!") ;; ret Break);
             (is_Exception,
              fun e =>
                print (nl ++ py "❌ Unexpected error: " ++ exn_str e) ;;
                print (py "Please try again or restart the application.") ;;
                ret Continue)] e (printing [input_prompt] s)).
  cbv [dispatch]. destruct (is_KeyboardInterrupt e); [run_prints|].
  destruct (is_Exception e); run_prints.
Qed.

(** ** The display of the history *)

Lemma turn_lines_length : forall history i,
  List.length (turn_lines i history) = 2 * List.length history.
Proof.
  induction history as [|[q a] rest IH]; intro i; simpl; [reflexivity|].
  rewrite IH. lia.
Qed.

Lemma turn_lines_nth : forall history i k q a,
  nth_error history k = Some (q, a) ->
  nth_error (turn_lines i history) (2 * k)
    = Some ((str_of_nat (i + k) ++ py ". Q: " ++ q) ++ nl)
  /\ nth_error (turn_lines i history) (1 + 2 * k)
     = Some ((if 100 <? len a
              then py "   A: " ++ slice_to 100 a ++ py "..."
              else py "   A: " ++ a) ++ nl).
Proof.
  induction history as [|[q0 a0] rest IH]; intros i k q a H.
  - destruct k; discriminate.
  - destruct k as [|k].
    + injection H as -> ->. rewrite Nat.add_0_r. split; reflexivity.
    + simpl in H. destruct (IH (S i) k q a H) as [Hq Ha].
      replace (2 * S k) with (S (S (2 * k))) by lia.
      replace (1 + S (S (2 * k))) with (S (S (1 + 2 * k))) by lia.
      replace (i + S k) with (S i + k) by lia.
      cbn [turn_lines nth_error]. split; assumption.
Qed.

(** C4.  The history display prints a notice when the history is empty;
    otherwise a heading and then, for the turn at position [k] (from 0),
    a question line numbered [k + 1] and an answer line showing the answer
    itself when it has at most 100 characters and its first 100
    characters followed by "..." when it has more. *)
Theorem history_display : forall s : State World,
  exists out,
    show_history s = (Ret tt, printing out s)
    /\ (forall line, In (lower line) history_words ->
          iteration invoke (Some (Line line)) s
          = (Ret Continue, printing (input_prompt :: out) s))
    /\ (chat_history (self s) = [] -> out = [py "No chat history yet." ++ nl])
    /\ (chat_history (self s) <> [] ->
          List.length out = 1 + 2 * List.length (chat_history (self s))
          /\ nth_error out 0 = Some ((nl ++ py "📝 Chat History:") ++ nl))
    /\ (forall k q a,
          nth_error (chat_history (self s)) k = Some (q, a) ->
          nth_error out (1 + 2 * k)
          = Some ((str_of_nat (k + 1) ++ py ". Q: " ++ q) ++ nl)
          /\ (100 < len a ->
                nth_error out (2 + 2 * k)
                = Some ((py "   A: " ++ firstn 100 a ++ py "...") ++ nl)
                /\ len (firstn 100 a) = 100)
          /\ (len a <= 100 ->
                nth_error out (2 + 2 * k) = Some ((py "   A: " ++ a) ++ nl))).
Proof.
  intro s.
  exists (match chat_history (self s) with
          | [] => [py "No chat history yet." ++ nl]
          | _ :: _ => ((nl ++ py "📝 Chat History:") ++ nl)
                        :: turn_lines 1 (chat_history (self s))
          end).
  split; [|split; [|split; [|split]]].
  - rewrite show_history_run. destruct (chat_history (self s)); reflexivity.
  - intros line H. rewrite (iteration_history line s H).
    destruct (chat_history (self s)); reflexivity.
  - intros ->. reflexivity.
  - intro Hne. destruct (chat_history (self s)) as [|t h] eqn:Hh;
      [congruence|].
    split; [|reflexivity].
    cbn [List.length]. rewrite turn_lines_length. reflexivity.
  - intros k q a Hk.
    destruct (chat_history (self s)) as [|t h] eqn:Hh;
      [destruct k; discriminate|].
    destruct (turn_lines_nth (t :: h) 1 k q a Hk) as [Hq Ha].
    replace (k + 1) with (1 + k) by lia.
    split; [exact Hq|].
    change (nth_error (_ :: turn_lines 1 (t :: h)) (2 + 2 * k))
      with (nth_error (turn_lines 1 (t :: h)) (1 + 2 * k)).
    rewrite Ha. unfold len, slice_to. split.
    + intro Hlong. apply Nat.ltb_lt in Hlong. unfold len in Hlong.
      rewrite Hlong. split; [reflexivity|].
      apply Nat.ltb_lt in Hlong. apply firstn_length_le. lia.
    + intro Hshort.
      assert (Hf : (100 <? List.length a) = false) by (apply Nat.ltb_ge; lia).
      rewrite Hf. reflexivity.
Qed.

(** ** The loop *)

Lemma loop_reaches : forall s pre s',
  reaches invoke s pre s' ->
  forall rest, loop invoke (pre ++ rest) s = loop invoke rest s'.
Proof.
  induction 1 as [s | s ev s1 pre s' Hit Hr IH]; intro rest; [reflexivity|].
  simpl. unfold bind at 1. rewrite Hit. apply IH.
Qed.

Lemma loop_break : forall ev rest s s1,
  iteration invoke (Some ev) s = (Ret Break, s1) ->
  loop invoke (ev :: rest) s = (Ret tt, s1).
Proof.
  intros ev rest s s1 H. simpl. unfold bind at 1. rewrite H. reflexivity.
Qed.

(** ** Start-up *)

Lemma welcome_returns : forall (a : DataAnalysisAgent) (p : Process World),
  (print_welcome_message : Py (State World) unit) {| self := a; proc := p |}
  = (Ret tt,
     snd ((print_welcome_message : Py (State World) unit)
            {| self := a; proc := p |})).
Proof. reflexivity. Qed.

Lemma script_started : forall host key p stdin s',
  getenv host (py "OPENAI_API_KEY") = Some key ->
  key <> [] ->
  path_exists host (py "data.csv") = true ->
  loop invoke stdin (booted key p) = (Ret tt, s') ->
  script invoke host stdin p = (Some 0%Z, proc s').
Proof.
  intros host key p stdin s' Hkey Hne Hfile Hloop.
  destruct key as [|c k]; [congruence|].
  unfold script, main, try_except, load_environment.
  unfold bind at 1. rewrite Hkey. cbv [ret]. cbv beta iota.
  rewrite Hfile. cbv [negb with_agent].
  unfold bind at 1. rewrite welcome_returns.
  change (snd (print_welcome_message _)) with (booted (c :: k) p).
  rewrite Hloop. reflexivity.
Qed.

Lemma script_no_key : forall host stdin p,
  getenv host (py "OPENAI_API_KEY") = None
  \/ getenv host (py "OPENAI_API_KEY") = Some [] ->
  script invoke host stdin p =
    (Some 0%Z,
     printing_p
       [(py "❌ Failed to initialize: "
         ++ py "OPENAI_API_KEY not found in environment variables. Please check your .env file.")
        ++ nl;
        py "Please check your configuration and try again." ++ nl] p).
Proof.
  intros host stdin p H.
  unfold script, main, try_except, load_environment.
  unfold bind at 1.
  destruct H as [H | H]; rewrite H; cbv [raise dispatch ValueError];
    simpl; unfold printing_p; rewrite <- app_assoc; reflexivity.
Qed.

Lemma script_no_file : forall host key stdin p,
  getenv host (py "OPENAI_API_KEY") = Some key ->
  key <> [] ->
  path_exists host (py "data.csv") = false ->
  script invoke host stdin p =
    (Some 0%Z,
     printing_p
       [(py "❌ Error: CSV file '" ++ py "data.csv" ++ py "' not found.") ++ nl;
        py "Please ensure your data file exists and update the path in main.py"
        ++ nl] p).
Proof.
  intros host key stdin p Hkey Hne Hfile.
  destruct key as [|c k]; [congruence|].
  unfold script, main, try_except, load_environment.
  unfold bind at 1. rewrite Hkey. cbv [ret]. cbv beta iota.
  rewrite Hfile. simpl. unfold printing_p. rewrite <- app_assoc. reflexivity.
Qed.

(** ** Quitting *)

(** C5.  A line whose lowercase form is "quit", "exit" or "q" ends the
    loop whatever its case: the pass prints the farewell and breaks with
    the agent, the engine and the record of calls untouched, and the
    program ends with exit status 0. *)
Theorem quit_ends_the_loop : forall host key p pre s' line rest,
  getenv host (py "OPENAI_API_KEY") = Some key ->
  key <> [] ->
  path_exists host (py "data.csv") = true ->
  reaches invoke (booted key p) pre s' ->
  In (lower line) quit_words ->
  iteration invoke (Some (Line line)) s'
  = (Ret Break, printing [input_prompt; py "👋 Goodbye!" ++ nl] s')
  /\ script invoke host (pre ++ Line line :: rest) p
     = (Some 0%Z, proc (printing [input_prompt; py "👋 Goodbye!" ++ nl] s')).
Proof.
  intros host key p pre s' line rest Hkey Hne Hfile Hpre Hq.
  pose proof (iteration_quit line s' Hq) as Hit.
  split; [exact Hit|].
  apply (script_started host key p _ _ Hkey Hne Hfile).
  rewrite (loop_reaches _ _ _ Hpre). now apply loop_break.
Qed.

(** ** Blank lines *)

Lemma chat_calls_after_chat : forall q s,
  chat_calls (proc (snd (chat invoke q s))) = chat_calls (proc s) ++ [q].
Proof.
  intros q s.
  destruct (invoke (agent_executor (self s)) (make_inputs (self s) q)
                   (world (proc s))) as [r w] eqn:Hinv.
  destruct (raised_in_try_cases r)
    as [[response [a [-> Hout]]] | [[e [Hr He]] | [e [-> He]]]].
  - now rewrite (chat_success q s response w a Hinv Hout).
  - now rewrite (chat_caught q s r w e Hinv Hr He).
  - now rewrite (chat_escapes q s w e Hinv He).
Qed.

(** Which calls of [chat] one pass through the loop body makes. *)
Lemma iteration_calls : forall ev s,
  chat_calls (proc (snd (iteration invoke (Some ev) s)))
  = chat_calls (proc s) ++ nonblank_lines [ev]
  \/ chat_calls (proc (snd (iteration invoke (Some ev) s)))
     = chat_calls (proc s).
Proof.
  intros [line|e] s.
  - destruct (str_in (lower line) quit_words) eqn:Hq.
    { right. apply str_in_In in Hq. now rewrite (iteration_quit line s Hq). }
    destruct (str_in (lower line) clear_words) eqn:Hc.
    { right. apply str_in_In in Hc. now rewrite (iteration_clear line s Hc). }
    destruct (str_in (lower line) history_words) eqn:Hh.
    { right. apply str_in_In in Hh. rewrite (iteration_history line s Hh).
      now destruct (chat_history (self s)). }
    destruct (strip line) as [|c r] eqn:Hs.
    { right. now rewrite (iteration_blank line s Hs). }
    left.
    assert (Hno : ~ In (lower line) commands).
    { rewrite In_commands. intros [H | [H | H]];
        apply str_in_In in H; congruence. }
    assert (Hne : strip line <> []) by congruence.
    rewrite (iteration_question line s Hno Hne).
    pose proof (chat_calls_after_chat line (printing [input_prompt] s)) as Hc'.
    unfold nonblank_lines. simpl. rewrite Hs. simpl.
    destruct (chat invoke line (printing [input_prompt] s))
      as [[response|e|] s1]; simpl in *.
    + exact Hc'.
    + destruct (is_KeyboardInterrupt e); [exact Hc'|].
      destruct (is_Exception e); exact Hc'.
    + exact Hc'.
  - right. rewrite iteration_input_raises.
    destruct (is_KeyboardInterrupt e); [reflexivity|].
    destruct (is_Exception e); reflexivity.
Qed.

Lemma loop_calls : forall stdin s,
  exists asked,
    chat_calls (proc (snd (loop invoke stdin s))) = chat_calls (proc s) ++ asked
    /\ List.length asked <= List.length (nonblank_lines stdin).
Proof.
  induction stdin as [|ev rest IH]; intro s.
  - exists []. split; [|simpl; lia]. now rewrite app_nil_r.
  - pose proof (iteration_calls ev s) as Hev.
    assert (Hlen : List.length (nonblank_lines (ev :: rest))
                   = List.length (nonblank_lines [ev])
                     + List.length (nonblank_lines rest)).
    { change (ev :: rest) with ([ev] ++ rest). unfold nonblank_lines.
      now rewrite flat_map_app, length_app. }
    cbn [loop]. unfold bind at 1.
    destruct (iteration invoke (Some ev) s) as [[[|]|e|] s1]; simpl in Hev.
    + cbv beta iota. unfold ret. simpl snd.
      destruct Hev as [Hev | Hev]; rewrite Hev.
      * exists (nonblank_lines [ev]). split; [reflexivity | lia].
      * exists []. split; [now rewrite app_nil_r | simpl; lia].
    + cbv beta iota. destruct (IH s1) as [asked [Hcalls Hle]]. rewrite Hcalls.
      destruct Hev as [Hev | Hev]; rewrite Hev.
      * exists (nonblank_lines [ev] ++ asked).
        split; [now rewrite <- app_assoc | rewrite length_app; lia].
      * exists asked. split; [reflexivity | lia].
    + cbv beta iota. simpl snd. destruct Hev as [Hev | Hev]; rewrite Hev.
      * exists (nonblank_lines [ev]). split; [reflexivity | lia].
      * exists []. split; [now rewrite app_nil_r | simpl; lia].
    + cbv beta iota. simpl snd. destruct Hev as [Hev | Hev]; rewrite Hev.
      * exists (nonblank_lines [ev]). split; [reflexivity | lia].
      * exists []. split; [now rewrite app_nil_r | simpl; lia].
Qed.

(** C6.  On a line that is empty or all whitespace the pass prints the
    request to enter a question and continues, with the agent, the engine
    and the record of calls of [chat] untouched; over a whole run the
    calls of [chat] only grow, by no more than the number of lines that
    are not blank. *)
Theorem blank_line_never_reaches_chat :
  (forall line s,
     all_space line ->
     strip line = []
     /\ iteration invoke (Some (Line line)) s
        = (Ret Continue,
           printing [input_prompt; py "Please enter a valid question." ++ nl] s)
     /\ chat_calls (proc (snd (iteration invoke (Some (Line line)) s)))
        = chat_calls (proc s))
  /\ (forall stdin s,
        exists asked,
          chat_calls (proc (snd (loop invoke stdin s)))
          = chat_calls (proc s) ++ asked
          /\ List.length asked <= List.length (nonblank_lines stdin)).
Proof.
  split.
  - intros line s Hs. apply strip_nil_iff in Hs.
    rewrite (iteration_blank line s Hs). repeat split. exact Hs.
  - exact loop_calls.
Qed.

(** ** Exit status *)

(** C7.  When the credential is missing (or empty), or the dataset file
    does not exist, the program prints its error message and ends with
    exit status 0 without reading any input or calling the engine; it
    also ends with status 0 when the loop reads a quit word or an
    interrupt arrives while it waits for input. *)
Theorem startup_failure_and_exit_status : forall host stdin p,
  (getenv host (py "OPENAI_API_KEY") = None
   \/ getenv host (py "OPENAI_API_KEY") = Some [] ->
   script invoke host stdin p =
     (Some 0%Z,
      printing_p
        [(py "❌ Failed to initialize: "
          ++ py "OPENAI_API_KEY not found in environment variables. Please check your .env file.")
         ++ nl;
         py "Please check your configuration and try again." ++ nl] p))
  /\ (forall key,
        getenv host (py "OPENAI_API_KEY") = Some key ->
        key <> [] ->
        (path_exists host (py "data.csv") = false ->
         script invoke host stdin p =
           (Some 0%Z,
            printing_p
              [(py "❌ Error: CSV file '" ++ py "data.csv" ++ py "' not found.")
               ++ nl;
               py "Please ensure your data file exists and update the path in main.py"
               ++ nl] p))
        /\ (path_exists host (py "data.csv") = true ->
            forall pre s' ev rest,
              stdin = pre ++ ev :: rest ->
              reaches invoke (booted key p) pre s' ->
              (exists line, ev = Line line /\ In (lower line) quit_words)
              \/ (exists e, ev = InputRaises e /\ is_KeyboardInterrupt e = true) ->
              fst (script invoke host stdin p) = Some 0%Z)).
Proof.
  intros host stdin p. split; [apply script_no_key|].
  intros key Hkey Hne.
  split; [exact (script_no_file host key stdin p Hkey Hne)|].
  intros Hfile pre s' ev rest -> Hpre Hev.
  assert (Hbreak : exists s1, iteration invoke (Some ev) s' = (Ret Break, s1)).
  { destruct Hev as [[line [-> Hq]] | [e [-> Hi]]].
    - eexists. now apply iteration_quit.
    - eexists. rewrite iteration_input_raises, Hi. reflexivity. }
  destruct Hbreak as [s1 Hs1].
  rewrite (script_started host key p _ s1 Hkey Hne Hfile); [reflexivity|].
  rewrite (loop_reaches _ _ _ Hpre). now apply loop_break.
Qed.

(** ** Command words with whitespace around them *)

(** C10.  The line is compared whole, in lowercase and untrimmed, with
    the command words: a command word (in any case) with whitespace
    before or after it matches none of them, is not blank, and is handed
    to [chat] as it was typed. *)
Theorem padded_command_is_a_question : forall ws1 cmd ws2 s,
  In (lower cmd) commands ->
  all_space ws1 -> all_space ws2 -> ws1 ++ ws2 <> [] ->
  str_in (lower (ws1 ++ cmd ++ ws2)) quit_words = false
  /\ str_in (lower (ws1 ++ cmd ++ ws2)) clear_words = false
  /\ str_in (lower (ws1 ++ cmd ++ ws2)) history_words = false
  /\ strip (ws1 ++ cmd ++ ws2) <> []
  /\ chat_calls (proc (snd (iteration invoke (Some (Line (ws1 ++ cmd ++ ws2))) s)))
     = chat_calls (proc s) ++ [ws1 ++ cmd ++ ws2]
  /\ (forall response s1,
        chat invoke (ws1 ++ cmd ++ ws2) (printing [input_prompt] s)
        = (Ret response, s1) ->
        iteration invoke (Some (Line (ws1 ++ cmd ++ ws2))) s
        = (Ret Continue,
           printing [(nl ++ py "📊 Agent Response:" ++ nl ++ response) ++ nl] s1)).
Proof.
  intros ws1 cmd ws2 s Hcmd H1 H2 Hne.
  pose proof (padded_no_command ws1 cmd ws2 Hcmd H1 H2 Hne) as Hno.
  pose proof (padded_not_blank ws1 cmd ws2 Hcmd) as Hnb.
  destruct (no_command_classify _ Hno) as [Hq [Hc Hh]].
  repeat split; try assumption.
  - rewrite (iteration_question _ s Hno Hnb).
    pose proof (chat_calls_after_chat (ws1 ++ cmd ++ ws2)
                  (printing [input_prompt] s)) as Hc'.
    destruct (chat invoke (ws1 ++ cmd ++ ws2) (printing [input_prompt] s))
      as [[response|e|] s1]; simpl in *.
    + exact Hc'.
    + destruct (is_KeyboardInterrupt e); [exact Hc'|].
      destruct (is_Exception e); exact Hc'.
    + exact Hc'.
  - intros response s1 Hchat.
    rewrite (iteration_question _ s Hno Hnb), Hchat. reflexivity.
Qed.

End Properties.

(** ** The bound on the engine's cycles *)

Lemma run_cycles_bound : forall think forced budget seen,
  snd (run_cycles think forced budget seen) <= budget.
Proof.
  intros think forced. induction budget as [|b IH]; intro seen; simpl.
  - lia.
  - destruct (think seen) as [answer|o]; simpl; [lia|].
    specialize (IH (seen ++ [o])).
    destruct (run_cycles think forced b (seen ++ [o])) as [answer n].
    simpl in *. lia.
Qed.

Lemma run_cycles_observing : forall forced o budget seen,
  run_cycles (fun _ => Observe o) forced budget seen
  = (forced (seen ++ repeat o budget), budget).
Proof.
  intros forced o. induction budget as [|b IH]; intro seen; simpl.
  - now rewrite app_nil_r.
  - rewrite IH, <- app_assoc. reflexivity.
Qed.

(** C8.  The agent configures its executor with [max_iterations = 10]
    while its prompt text speaks of cycles "repeated zero or 3 times";
    an engine bounded by that setting runs at most 10 cycles whatever it
    thinks, and one that never finishes is stopped after exactly 10 with
    the forced answer. *)
Theorem engine_bounded_by_ten : forall llm0 path,
  max_iterations (agent_executor (__init__ llm0 path)) = 10
  /\ contains (template (prompt_template (__init__ llm0 path)))
       (py "can be repeated zero or 3 times") = true
  /\ (forall think forced,
        snd (engine_run (agent_executor (__init__ llm0 path)) think forced)
        <= 10)
  /\ (forall forced o,
        engine_run (agent_executor (__init__ llm0 path))
          (fun _ => Observe o) forced
        = (forced (repeat o 10), 10)).
Proof.
  intros llm0 path. split; [reflexivity|]. split; [vm_compute; reflexivity|].
  split.
  - intros think forced. unfold engine_run. apply run_cycles_bound.
  - intros forced o. unfold engine_run. apply run_cycles_observing.
Qed.

(* ===================================================================== *)
(** * The properties at concrete runs *)
(* ===================================================================== *)

Import Demo.

(** The engine fails with "rate limit exceeded": the text returned and
    recorded. *)
Lemma chat_failure_handling_witness :
  fst (chat scripted q_stats (start [Raises rate_limit]))
  = Ret (py "Execution error: rate limit exceeded")
  /\ chat_history (self (snd (chat scripted q_stats (start [Raises rate_limit]))))
     = [(q_stats, py "Execution error: rate limit exceeded")]
  /\ List.length
       (chat_history (self (snd (chat scripted q_stats (start [Raises rate_limit])))))
     = 1.
Proof.
  pose proof (chat_failure_handling _ scripted q_stats
                (start [Raises rate_limit]) (Raises rate_limit) []
                rate_limit eq_refl eq_refl) as H.
  vm_compute in H. vm_compute. exact H.
Defined.

(** C1 as stated fails: an interrupt raised while the engine runs leaves
    [chat] as an exception, no text is returned and no turn is
    recorded. *)
Lemma chat_interrupt_escapes :
  ~ (exists text,
       fst (chat scripted q_stats (start [Raises interrupt])) = Ret text)
  /\ fst (chat scripted q_stats (start [Raises interrupt])) = Raise interrupt
  /\ chat_history (self (snd (chat scripted q_stats (start [Raises interrupt]))))
     = [].
Proof.
  split; [|split].
  - intros [text H]. vm_compute in H. discriminate H.
  - vm_compute. reflexivity.
  - vm_compute. reflexivity.
Qed.

(** Two answered questions from an empty history. *)
Lemma successful_calls_history_witness :
  all_answered scripted (start [answer a_stats; answer (py "done")])
    [q_stats; q_plot] [a_stats; py "done"]
  /\ fst (chat_each scripted [q_stats; q_plot]
            (start [answer a_stats; answer (py "done")]))
     = Ret [a_stats; py "done"]
  /\ chat_history
       (self (snd (chat_each scripted [q_stats; q_plot]
                     (start [answer a_stats; answer (py "done")]))))
     = [(q_stats, a_stats); (q_plot, py "done")]
  /\ List.length
       (chat_history
          (self (snd (chat_each scripted [q_stats; q_plot]
                        (start [answer a_stats; answer (py "done")])))))
     = 2.
Proof.
  assert (H : all_answered scripted (start [answer a_stats; answer (py "done")])
                [q_stats; q_plot] [a_stats; py "done"]).
  { apply all_answered_cons.
    - eexists. eexists. split; vm_compute; reflexivity.
    - apply all_answered_cons.
      + eexists. eexists. split; vm_compute; reflexivity.
      + apply all_answered_nil. }
  split; [exact H|].
  destruct (successful_calls_history _ scripted _ _ _ H) as [Hr [Hh [Hl _]]].
  split; [exact Hr|]. split; [exact Hh | exact Hl].
Defined.

(** A history with a short and a long answer, and an empty one. *)
Lemma history_display_witness :
  (exists out,
     show_history (start_with [(q_stats, a_stats); (q_plot, long_answer)] [])
     = (Ret tt,
        printing out (start_with [(q_stats, a_stats); (q_plot, long_answer)] []))
     /\ nth_error out 1 = Some (py "1. Q: show me basic statistics" ++ nl)
     /\ nth_error out 2 = Some (py "   A: Mean age is 29.7" ++ nl)
     /\ nth_error out 3 = Some (py "2. Q: plot the ages" ++ nl)
     /\ nth_error out 4
        = Some (py "   A: " ++ repeat 120%N 100 ++ py "..." ++ nl))
  /\ show_history (start [])
     = (Ret tt, printing [py "No chat history yet." ++ nl] (start [])).
Proof.
  split.
  - destruct (history_display _ scripted
                (start_with [(q_stats, a_stats); (q_plot, long_answer)] []))
      as [out [Hshow [_ [_ [_ Hnth]]]]].
    exists out. split; [exact Hshow|].
    destruct (Hnth 0 q_stats a_stats eq_refl) as [Hq1 [_ Ha1]].
    destruct (Hnth 1 q_plot long_answer eq_refl) as [Hq2 [Ha2 _]].
    assert (Hshort : len a_stats <= 100) by (vm_compute; lia).
    assert (Hlong : 100 < len long_answer) by (vm_compute; lia).
    specialize (Ha1 Hshort). destruct (Ha2 Hlong) as [Ha2' _].
    vm_compute in Hq1, Ha1, Hq2, Ha2'. vm_compute.
    split; [exact Hq1|]. split; [exact Ha1|]. split; [exact Hq2 | exact Ha2'].
  - destruct (history_display _ scripted (start [])) as [out [Hshow [_ [He _]]]].
    rewrite (He eq_refl) in Hshow. exact Hshow.
Defined.

(** After one answered question, "QUIT" ends the program with status 0. *)
Lemma quit_ends_the_loop_witness :
  reaches scripted (booted (py "sk-test") (process0 [answer a_stats]))
    [Line q_stats] after_first_line
  /\ In (lower (py "QUIT")) quit_words
  /\ fst (iteration scripted (Some (Line (py "QUIT"))) after_first_line)
     = Ret Break
  /\ fst (script scripted host_ok
            [Line q_stats; Line (py "QUIT"); Line q_plot]
            (process0 [answer a_stats]))
     = Some 0%Z.
Proof.
  assert (Hr : reaches scripted (booted (py "sk-test") (process0 [answer a_stats]))
                 [Line q_stats] after_first_line).
  { apply reaches_cons with (s1 := after_first_line);
      [vm_compute; reflexivity | apply reaches_nil]. }
  assert (Hq : In (lower (py "QUIT")) quit_words) by (left; reflexivity).
  assert (Hk : py "sk-test" <> []) by discriminate.
  destruct (quit_ends_the_loop _ scripted host_ok (py "sk-test")
              (process0 [answer a_stats]) [Line q_stats] after_first_line
              (py "QUIT") [Line q_plot] eq_refl Hk eq_refl Hr Hq)
    as [Hit Hs].
  split; [exact Hr|]. split; [exact Hq|]. split.
  - rewrite Hit. reflexivity.
  - change ([Line q_stats; Line (py "QUIT"); Line q_plot])
      with ([Line q_stats] ++ Line (py "QUIT") :: [Line q_plot]).
    rewrite Hs. reflexivity.
Defined.

(** A line of three spaces, and a run with two blank lines around one
    question. *)
Lemma blank_line_never_reaches_chat_witness :
  all_space (py "   ")
  /\ chat_calls
       (proc (snd (iteration scripted (Some (Line (py "   ")))
                     (start [answer a_stats]))))
     = []
  /\ exists asked,
       chat_calls
         (proc (snd (loop scripted [Line []; Line q_stats; Line (py "   ")]
                       (start [answer a_stats]))))
       = asked
       /\ List.length asked <= 1.
Proof.
  assert (Hs : all_space (py "   ")) by (repeat constructor).
  destruct (blank_line_never_reaches_chat _ scripted) as [Hline Hrun].
  destruct (Hline (py "   ") (start [answer a_stats]) Hs) as [_ [_ Hc]].
  split; [exact Hs|]. split; [exact Hc|].
  destruct (Hrun [Line []; Line q_stats; Line (py "   ")] (start [answer a_stats]))
    as [asked [Ha Hl]].
  exists asked. split; [exact Ha | exact Hl].
Defined.

(** No credential, no dataset file, and an interrupt at the prompt. *)
Lemma startup_failure_and_exit_status_witness :
  script scripted host_no_key [Line q_stats] (process0 [])
  = (Some 0%Z,
     printing_p
       [(py "❌ Failed to initialize: "
         ++ py "OPENAI_API_KEY not found in environment variables. Please check your .env file.")
        ++ nl;
        py "Please check your configuration and try again." ++ nl]
       (process0 []))
  /\ script scripted host_no_file [Line q_stats] (process0 [])
     = (Some 0%Z,
        printing_p
          [(py "❌ Error: CSV file '" ++ py "data.csv" ++ py "' not found.")
           ++ nl;
           py "Please ensure your data file exists and update the path in main.py"
           ++ nl]
          (process0 []))
  /\ fst (script scripted host_ok [Line q_stats; InputRaises interrupt]
            (process0 [answer a_stats]))
     = Some 0%Z.
Proof.
  assert (Hk : py "sk-test" <> []) by discriminate.
  assert (Hr : reaches scripted (booted (py "sk-test") (process0 [answer a_stats]))
                 [Line q_stats] after_first_line).
  { apply reaches_cons with (s1 := after_first_line);
      [vm_compute; reflexivity | apply reaches_nil]. }
  split; [|split].
  - exact (proj1 (startup_failure_and_exit_status _ scripted host_no_key
                    [Line q_stats] (process0 []))
                 (or_introl eq_refl)).
  - exact (proj1 (proj2 (startup_failure_and_exit_status _ scripted host_no_file
                           [Line q_stats] (process0 []))
                        (py "sk-test") eq_refl Hk)
                 eq_refl).
  - exact (proj2 (proj2 (startup_failure_and_exit_status _ scripted host_ok
                           [Line q_stats; InputRaises interrupt]
                           (process0 [answer a_stats]))
                        (py "sk-test") eq_refl Hk)
                 eq_refl [Line q_stats] after_first_line
                 (InputRaises interrupt) [] eq_refl Hr
                 (or_intror (ex_intro _ interrupt (conj eq_refl eq_refl)))).
Defined.

(** "quit" followed by a space goes to [chat]. *)
Lemma padded_command_is_a_question_witness :
  In (lower (py "quit")) commands
  /\ str_in (lower (py "quit ")) quit_words = false
  /\ strip (py "quit ") <> []
  /\ chat_calls
       (proc (snd (iteration scripted (Some (Line (py "quit ")))
                     (start [answer a_stats]))))
     = [py "quit "].
Proof.
  assert (Hc : In (lower (py "quit")) commands) by (left; reflexivity).
  assert (H1 : all_space []) by constructor.
  assert (H2 : all_space (py " ")) by (repeat constructor).
  assert (Hne : [] ++ py " " <> []) by discriminate.
  destruct (padded_command_is_a_question _ scripted [] (py "quit") (py " ")
              (start [answer a_stats]) Hc H1 H2 Hne)
    as [Hq [_ [_ [Hs [Hcalls _]]]]].
  split; [exact Hc|]. split; [exact Hq|]. split; [exact Hs | exact Hcalls].
Defined.
